(** * Polygon sketching app (src/baseline/main.py): state, undo/redo history

    Shallow embedding of the logic of [DrawingApp]: every method becomes a
    function [DrawingApp -> DrawingApp] (explicit state passing).  Canvas
    calls ([redraw], [canvas.delete]) only touch the display, never the
    fields below, and are left out.

    Aliasing.  Python lists are mutable, so the model must justify value
    semantics.  Every snapshot is built by slicing ([p[:]]), and
    [restore_state] slices again, so no snapshot shares a list with the live
    state.  [on_finish] appends the live [current_poly] object itself to
    [polygons], but rebinds [current_poly] to a fresh [[]] right after, so
    that object is then only reachable from [polygons], whose inner lists are
    never mutated in place.  Hence lists can be modelled as values and a
    slice copy as the identity ([clone]). *)

From Stdlib Require Import ZArith List Bool Lia.
Import ListNotations.

Module Sketch.

(** A point is the pair [(event.x, event.y)] of integer pixel coordinates. *)
Definition point : Type := (Z * Z)%type.

(** A finished shape: a Python list of points. *)
Definition poly : Type := list point.

(** The dictionary [{'polygons': ..., 'current_poly': ...}] stored on the
    undo and redo stacks. *)
Record snapshot : Type := mkSnapshot {
  snap_polygons : list poly;
  snap_current_poly : list point
}.

(** The fields of [DrawingApp] that the logic reads and writes. *)
Record DrawingApp : Type := mkApp {
  polygons : list poly;
  current_poly : list point;
  mouse_pos : point;
  undo_stack : list snapshot;
  redo_stack : list snapshot
}.

(** [__init__]: empty lists, [mouse_pos = (0, 0)]; the initial
    [save_state()] is commented out in the source. *)
Definition init : DrawingApp := mkApp [] [] (0%Z, 0%Z) [] [].

(** Slice copy [l[:]]: an equal, unaliased list. *)
Definition clone {A : Type} (l : list A) : list A := l.

(** [list.append x]: adds at the end. *)
Definition append {A : Type} (l : list A) (x : A) : list A := l ++ [x].

(** [list.pop()]: removes and returns the last element; [None] stands for
    the [IndexError] of an empty list (never reached: both callers test
    the stack first). *)
Fixpoint pop {A : Type} (l : list A) : option (list A * A) :=
  match l with
  | [] => None
  | x :: t =>
      match pop t with
      | None => Some ([], x)
      | Some (t', y) => Some (x :: t', y)
      end
  end.

(** The snapshot dictionary built in [save_state], [undo] and [redo]:
    [{'polygons': [p[:] for p in self.polygons],
      'current_poly': self.current_poly[:]}]. *)
Definition snapshot_of (s : DrawingApp) : snapshot :=
  mkSnapshot (map clone (polygons s)) (clone (current_poly s)).

(** [save_state]: push a snapshot on [undo_stack], clear [redo_stack]. *)
Definition save_state (s : DrawingApp) : DrawingApp :=
  mkApp (polygons s) (current_poly s) (mouse_pos s)
        (append (undo_stack s) (snapshot_of s)) [].

(** [restore_state]: overwrite [polygons] and [current_poly] with copies of
    the snapshot's lists. *)
Definition restore_state (s : DrawingApp) (st : snapshot) : DrawingApp :=
  mkApp (map clone (snap_polygons st)) (clone (snap_current_poly st))
        (mouse_pos s) (undo_stack s) (redo_stack s).

(** [undo]: guarded by [len(self.undo_stack) > 0], i.e. [pop] succeeds.
    The live state goes to [redo_stack], then the top of [undo_stack] is
    popped and restored. *)
Definition undo (s : DrawingApp) : DrawingApp :=
  match pop (undo_stack s) with
  | None => s
  | Some (rest, previous_state) =>
      let s1 := mkApp (polygons s) (current_poly s) (mouse_pos s)
                      rest (append (redo_stack s) (snapshot_of s)) in
      restore_state s1 previous_state
  end.

(** [redo]: the mirror of [undo], guarded by [if self.redo_stack]. *)
Definition redo (s : DrawingApp) : DrawingApp :=
  match pop (redo_stack s) with
  | None => s
  | Some (rest, next_state) =>
      let s1 := mkApp (polygons s) (current_poly s) (mouse_pos s)
                      (append (undo_stack s) (snapshot_of s)) rest in
      restore_state s1 next_state
  end.

(** [clearall]: [save_state()], then empty [polygons] and [current_poly]. *)
Definition clearall (s : DrawingApp) : DrawingApp :=
  let s1 := save_state s in
  mkApp [] [] (mouse_pos s1) (undo_stack s1) (redo_stack s1).

(** [on_click]: [save_state()], then append [(event.x, event.y)]. *)
Definition on_click (s : DrawingApp) (p : point) : DrawingApp :=
  let s1 := save_state s in
  mkApp (polygons s1) (append (current_poly s1) p) (mouse_pos s1)
        (undo_stack s1) (redo_stack s1).

(** [on_move]: [self.mouse_pos = (event.x, event.y)]. *)
Definition on_move (s : DrawingApp) (p : point) : DrawingApp :=
  mkApp (polygons s) (current_poly s) p (undo_stack s) (redo_stack s).

(** [on_finish]: only when [len(self.current_poly) > 2]: [save_state()],
    append [current_poly] to [polygons], reset [current_poly] to [[]]. *)
Definition on_finish (s : DrawingApp) : DrawingApp :=
  if Nat.ltb 2 (length (current_poly s)) then
    let s1 := save_state s in
    mkApp (append (polygons s1) (current_poly s1)) [] (mouse_pos s1)
          (undo_stack s1) (redo_stack s1)
  else s.

(** The input events bound in [__init__] (canvas events and buttons). *)
Inductive event : Type :=
| Click (p : point)      (* <Button-1> *)
| Move (p : point)       (* <Motion> *)
| DoubleClick            (* <Double-Button-1> *)
| UndoButton
| RedoButton
| ClearAllButton.

Definition step (s : DrawingApp) (e : event) : DrawingApp :=
  match e with
  | Click p => on_click s p
  | Move p => on_move s p
  | DoubleClick => on_finish s
  | UndoButton => undo s
  | RedoButton => redo s
  | ClearAllButton => clearall s
  end.

(** Running the main loop over a sequence of events. *)
Definition run (s : DrawingApp) (es : list event) : DrawingApp :=
  fold_left step es s.

(** The three handlers that call [save_state]. *)
Inductive action : Type :=
| AddPoint (p : point)
| FinishShape
| ClearAll.

Definition perform (a : action) (s : DrawingApp) : DrawingApp :=
  match a with
  | AddPoint p => on_click s p
  | FinishShape => on_finish s
  | ClearAll => clearall s
  end.

(** Whether [perform a s] changes the sketch: [on_finish] is guarded by
    [len(self.current_poly) > 2], the others are unconditional. *)
Definition mutates (a : action) (s : DrawingApp) : bool :=
  match a with
  | FinishShape => Nat.ltb 2 (length (current_poly s))
  | _ => true
  end.

(** Number of snapshots stored in the history. *)
Definition stack_total (s : DrawingApp) : nat :=
  length (undo_stack s) + length (redo_stack s).

(** Every finished shape has at least 3 points, in the live state and in
    every stored snapshot. *)
Definition shapes_ok (ps : list poly) : bool :=
  forallb (fun p => Nat.leb 3 (length p)) ps.

Definition snapshot_ok (st : snapshot) : bool := shapes_ok (snap_polygons st).

Definition app_ok (s : DrawingApp) : bool :=
  shapes_ok (polygons s) && forallb snapshot_ok (undo_stack s)
  && forallb snapshot_ok (redo_stack s).

(** ** The canvas

    [redraw] clears the canvas and creates line items.  The canvas is
    modelled as the list of its items in creation (stacking) order; an item
    records the arguments given to [create_line]: its coordinates, [fill],
    and the [width] and [dash] options when passed ([None] when left to Tk). *)
Inductive color : Type := Black | Red | Gray.

Record line : Type := mkLine {
  coords : list point;
  fill : color;
  width : option Z;
  dash : option (Z * Z)
}.

Definition color_eqb (a b : color) : bool :=
  match a, b with
  | Black, Black | Red, Red | Gray, Gray => true
  | _, _ => false
  end.

(** [self.current_poly[-1]], only read when [current_poly] is non-empty
    (the default is never used). *)
Definition last_point (l : list point) : point := last l (0%Z, 0%Z).

(** [redraw]: after [canvas.delete("all")], one black line per finished
    shape with more than one point (open, no fill), then, when [current_poly]
    is non-empty, a red line through it if it has more than one point and
    the gray dashed rubber band from its last point to [mouse_pos]. *)
Definition redraw (s : DrawingApp) : list line :=
  map (fun poly => mkLine poly Black (Some 2%Z) None)
      (filter (fun poly => Nat.ltb 1 (length poly)) (polygons s))
  ++ (if Nat.ltb 0 (length (current_poly s)) then
        (if Nat.ltb 1 (length (current_poly s))
         then [mkLine (current_poly s) Red (Some 2%Z) None] else [])
        ++ [mkLine [last_point (current_poly s); mouse_pos s] Gray None
                   (Some (4%Z, 2%Z))]
      else []).

(** The application together with what its canvas shows. *)
Record Screen : Type := mkScreen {
  app : DrawingApp;
  canvas : list line
}.

(** A freshly created [tk.Canvas] has no items. *)
Definition screen_init : Screen := mkScreen init [].

(** A handler that ends in [self.redraw()] (directly or through
    [restore_state]). *)
Definition redrawn (a : DrawingApp) : Screen := mkScreen a (redraw a).

(** The handlers with their canvas effects: [on_click], [on_move] and
    [clearall] always redraw ([clearall]'s own [canvas.delete("all")] is
    subsumed by the one in [redraw]); [on_finish] redraws only inside its
    guard; [undo] and [redo] redraw only through [restore_state], i.e. when
    their stack is non-empty. *)
Definition step_screen (sc : Screen) (e : event) : Screen :=
  let s := app sc in
  match e with
  | Click p => redrawn (on_click s p)
  | Move p => redrawn (on_move s p)
  | DoubleClick =>
      if Nat.ltb 2 (length (current_poly s)) then redrawn (on_finish s) else sc
  | UndoButton =>
      match pop (undo_stack s) with
      | None => sc
      | Some _ => redrawn (undo s)
      end
  | RedoButton =>
      match pop (redo_stack s) with
      | None => sc
      | Some _ => redrawn (redo s)
      end
  | ClearAllButton => redrawn (clearall s)
  end.

Definition run_screen (sc : Screen) (es : list event) : Screen :=
  fold_left step_screen es sc.

Definition lines_of (c : color) (ls : list line) : list line :=
  filter (fun l => color_eqb (fill l) c) ls.

(** ** Tests on the example of the spec *)

Definition ex_drawn : DrawingApp :=
  run init [Click (10, 10)%Z; Click (20, 10)%Z; Click (20, 20)%Z; DoubleClick].

(** Three clicks, before the double click. *)
Definition ex_drawn_pending : DrawingApp :=
  run init [Click (10, 10)%Z; Click (20, 10)%Z; Click (20, 20)%Z].

(** Two clicks only. *)
Definition ex_two : DrawingApp := run init [Click (1, 1)%Z; Click (2, 2)%Z].

(** The finished example after one undo: [redo_stack] is non-empty. *)
Definition ex_after_undo : DrawingApp := undo ex_drawn.

Example ex_finish :
  polygons ex_drawn = [[(10, 10); (20, 10); (20, 20)]%Z] /\ current_poly ex_drawn = [].
Proof. split; reflexivity. Qed.

Example ex_undo :
  polygons (undo ex_drawn) = [] /\
  current_poly (undo ex_drawn) = [(10, 10); (20, 10); (20, 20)]%Z.
Proof. split; reflexivity. Qed.

Example ex_redo :
  polygons (redo (undo ex_drawn)) = polygons ex_drawn /\
  current_poly (redo (undo ex_drawn)) = current_poly ex_drawn.
Proof. split; reflexivity. Qed.

Example ex_redraw :
  redraw (on_move ex_drawn_pending (30, 30)%Z) =
  [mkLine [(10, 10); (20, 10); (20, 20)]%Z Red (Some 2%Z) None;
   mkLine [(20, 20); (30, 30)]%Z Gray None (Some (4%Z, 2%Z))].
Proof. reflexivity. Qed.

Example ex_finish_short : on_finish (run init [Click (1, 1)%Z; Click (2, 2)%Z])
                          = run init [Click (1, 1)%Z; Click (2, 2)%Z].
Proof. reflexivity. Qed.

(** ** Lemmas on the list primitives *)

Lemma pop_append {A : Type} (l : list A) (x : A) :
  pop (append l x) = Some (l, x).
Proof.
  unfold append. induction l as [|y l IH]; simpl; [reflexivity|].
  rewrite IH. reflexivity.
Qed.

Lemma pop_some {A : Type} (l r : list A) (x : A) :
  pop l = Some (r, x) -> l = append r x.
Proof.
  unfold append. revert r. induction l as [|y l IH]; intros r H; simpl in H;
    [discriminate|].
  destruct (pop l) as [[t' z]|] eqn:E.
  - injection H as <- <-. simpl. f_equal. apply IH. reflexivity.
  - injection H as <- <-. destruct l as [|w l]; [reflexivity|].
    simpl in E. destruct (pop l) as [[? ?]|]; discriminate.
Qed.

Lemma pop_none {A : Type} (l : list A) : pop l = None -> l = [].
Proof.
  destruct l as [|y l]; simpl; [reflexivity|].
  destruct (pop l) as [[? ?]|]; discriminate.
Qed.

Lemma map_clone {A : Type} (l : list (list A)) : map clone l = l.
Proof. unfold clone. apply map_id. Qed.

Lemma snapshot_of_restore (s : DrawingApp) (st : snapshot) :
  snapshot_of (restore_state s st) = st.
Proof.
  destruct st as [ps cp]. unfold snapshot_of, restore_state; simpl.
  rewrite !map_clone. reflexivity.
Qed.

Lemma undo_nonempty (s : DrawingApp) :
  undo_stack s <> [] ->
  exists rest prev,
    undo_stack s = append rest prev /\
    undo s = mkApp (snap_polygons prev) (snap_current_poly prev) (mouse_pos s)
                   rest (append (redo_stack s) (snapshot_of s)).
Proof.
  intros Hne. unfold undo.
  destruct (pop (undo_stack s)) as [[rest prev]|] eqn:E.
  - exists rest, prev. split; [apply pop_some; exact E|].
    unfold restore_state; simpl. rewrite map_clone. reflexivity.
  - apply pop_none in E. contradiction.
Qed.

Lemma redo_nonempty (s : DrawingApp) :
  redo_stack s <> [] ->
  exists rest next,
    redo_stack s = append rest next /\
    redo s = mkApp (snap_polygons next) (snap_current_poly next) (mouse_pos s)
                   (append (undo_stack s) (snapshot_of s)) rest.
Proof.
  intros Hne. unfold redo.
  destruct (pop (redo_stack s)) as [[rest next]|] eqn:E.
  - exists rest, next. split; [apply pop_some; exact E|].
    unfold restore_state; simpl. rewrite map_clone. reflexivity.
  - apply pop_none in E. contradiction.
Qed.

Lemma undo_empty (s : DrawingApp) : undo_stack s = [] -> undo s = s.
Proof. intros H. unfold undo. rewrite H. reflexivity. Qed.

Lemma redo_empty (s : DrawingApp) : redo_stack s = [] -> redo s = s.
Proof. intros H. unfold redo. rewrite H. reflexivity. Qed.

(** Undo followed by redo is the identity on the whole state. *)
Lemma redo_undo_id (s : DrawingApp) : undo_stack s <> [] -> redo (undo s) = s.
Proof.
  intros Hne. destruct (undo_nonempty s Hne) as (rest & prev & Hu & ->).
  unfold redo; simpl. rewrite pop_append.
  unfold restore_state, snapshot_of; simpl. rewrite !map_clone.
  destruct s as [ps cp m us rs]; simpl in *. rewrite Hu.
  destruct prev as [pps pcp]. reflexivity.
Qed.


Lemma snapshot_ok_of (s : DrawingApp) :
  shapes_ok (polygons s) = true -> snapshot_ok (snapshot_of s) = true.
Proof. intros H. unfold snapshot_ok, snapshot_of; simpl. rewrite map_clone. exact H. Qed.

Lemma forallb_append {A : Type} (f : A -> bool) (l : list A) (x : A) :
  forallb f (append l x) = forallb f l && f x.
Proof. unfold append. rewrite forallb_app. simpl. rewrite andb_true_r. reflexivity. Qed.

(** Every event preserves [app_ok]. *)
Lemma step_ok (s : DrawingApp) (e : event) :
  app_ok s = true -> app_ok (step s e) = true.
Proof.
  unfold app_ok. intros H. apply andb_true_iff in H as [H Hr].
  apply andb_true_iff in H as [Hp Hu].
  destruct e as [p|p| | | | ]; simpl.
  - rewrite forallb_append, Hp, Hu, snapshot_ok_of by exact Hp. reflexivity.
  - rewrite Hp, Hu, Hr. reflexivity.
  - unfold on_finish. destruct (Nat.ltb 2 (length (current_poly s))) eqn:Hlt;
      simpl; [|rewrite Hp, Hu, Hr; reflexivity].
    unfold shapes_ok in *. rewrite !forallb_append, Hp, Hu, snapshot_ok_of by exact Hp.
    apply Nat.ltb_lt in Hlt. replace (Nat.leb 3 (length (current_poly s))) with true
      by (symmetry; apply Nat.leb_le; lia). reflexivity.
  - destruct (undo_stack s) as [|u us] eqn:E.
    + rewrite undo_empty by exact E. rewrite Hp, E, Hr. reflexivity.
    + assert (Hne : undo_stack s <> []) by (rewrite E; discriminate).
      destruct (undo_nonempty s Hne) as (rest & prev & Hs & ->). simpl.
      rewrite <- E, Hs, forallb_append in Hu. apply andb_true_iff in Hu as [Hrest Hprev].
      unfold snapshot_ok in Hprev. rewrite Hprev, Hrest, forallb_append, Hr.
      rewrite snapshot_ok_of by exact Hp. reflexivity.
  - destruct (redo_stack s) as [|r rs] eqn:E.
    + rewrite redo_empty by exact E. rewrite Hp, Hu, E. reflexivity.
    + assert (Hne : redo_stack s <> []) by (rewrite E; discriminate).
      destruct (redo_nonempty s Hne) as (rest & next & Hs & ->). simpl.
      rewrite <- E, Hs, forallb_append in Hr. apply andb_true_iff in Hr as [Hrest Hnext].
      unfold snapshot_ok in Hnext. rewrite Hnext, Hrest, forallb_append, Hu.
      rewrite snapshot_ok_of by exact Hp. reflexivity.
  - rewrite forallb_append, Hu, snapshot_ok_of by exact Hp. reflexivity.
Qed.

Lemma run_ok (es : list event) (s : DrawingApp) :
  app_ok s = true -> app_ok (run s es) = true.
Proof.
  unfold run. revert s. induction es as [|e es IH]; intros s H; simpl; [exact H|].
  apply IH, step_ok, H.
Qed.

(** Undo right after an action that called [save_state]. *)
Ltac undo_of_saved :=
  unfold undo; simpl; rewrite pop_append;
  unfold restore_state, snapshot_of; simpl; rewrite ?map_clone.

(** ** Claims *)

(** C1: after [on_click], after [on_finish] with more than 2 pending points,
    and after [clearall], [undo] restores [polygons] and [current_poly] to
    their values just before the action (for every state). *)
Theorem undo_after_action (a : action) (s : DrawingApp) :
  mutates a s = true ->
  polygons (undo (perform a s)) = polygons s /\
  current_poly (undo (perform a s)) = current_poly s.
Proof.
  intros Hm. destruct a as [p| |]; simpl in Hm; simpl.
  - unfold on_click, save_state; simpl. undo_of_saved. split; reflexivity.
  - unfold on_finish, save_state. rewrite Hm. simpl. undo_of_saved. split; reflexivity.
  - unfold clearall, save_state; simpl. undo_of_saved. split; reflexivity.
Qed.

Lemma undo_after_action_witness :
  mutates FinishShape ex_drawn_pending = true /\
  polygons (undo (perform FinishShape ex_drawn_pending)) = polygons ex_drawn_pending /\
  current_poly (undo (perform FinishShape ex_drawn_pending)) = current_poly ex_drawn_pending.
Proof.
  split; [reflexivity|]. apply undo_after_action. reflexivity.
Defined.

(** C2: when [undo_stack] is non-empty, [undo] then [redo] restores
    [polygons] and [current_poly] to their values before the [undo]. *)
Theorem redo_after_undo (s : DrawingApp) :
  undo_stack s <> [] ->
  polygons (redo (undo s)) = polygons s /\
  current_poly (redo (undo s)) = current_poly s.
Proof. intros H. rewrite (redo_undo_id s H). split; reflexivity. Qed.

Lemma redo_after_undo_witness :
  undo_stack ex_drawn <> [] /\
  polygons (redo (undo ex_drawn)) = polygons ex_drawn /\
  current_poly (redo (undo ex_drawn)) = current_poly ex_drawn.
Proof.
  assert (H : undo_stack ex_drawn <> []) by (vm_compute; discriminate).
  split; [exact H|]. apply redo_after_undo. exact H.
Defined.

(** C3: with 3 or more pending points, [on_finish] pushes the snapshot of
    the prior state, appends the prior [current_poly] (same order) after the
    unchanged earlier shapes, and empties [current_poly]. *)
Theorem finish_shape_three (s : DrawingApp) :
  3 <= length (current_poly s) ->
  undo_stack (on_finish s) = undo_stack s ++ [snapshot_of s] /\
  snap_polygons (snapshot_of s) = polygons s /\
  snap_current_poly (snapshot_of s) = current_poly s /\
  polygons (on_finish s) = polygons s ++ [current_poly s] /\
  current_poly (on_finish s) = [].
Proof.
  intros H. unfold on_finish.
  replace (Nat.ltb 2 (length (current_poly s))) with true
    by (symmetry; apply Nat.ltb_lt; lia).
  unfold save_state, snapshot_of, append; simpl. rewrite map_clone. unfold clone. repeat split; reflexivity.
Qed.

Lemma finish_shape_three_witness :
  3 <= length (current_poly ex_drawn_pending) /\
  undo_stack (on_finish ex_drawn_pending) = undo_stack ex_drawn_pending ++ [snapshot_of ex_drawn_pending] /\
  snap_polygons (snapshot_of ex_drawn_pending) = polygons ex_drawn_pending /\
  snap_current_poly (snapshot_of ex_drawn_pending) = current_poly ex_drawn_pending /\
  polygons (on_finish ex_drawn_pending) = polygons ex_drawn_pending ++ [current_poly ex_drawn_pending] /\
  current_poly (on_finish ex_drawn_pending) = [].
Proof.
  assert (H : 3 <= length (current_poly ex_drawn_pending)) by (vm_compute; lia).
  split; [exact H|]. apply finish_shape_three. exact H.
Defined.

(** C4: with 0, 1 or 2 pending points, [on_finish] changes nothing: shapes,
    pending points and both stacks are left as they are. *)
Theorem finish_shape_short_noop (s : DrawingApp) :
  length (current_poly s) <= 2 -> on_finish s = s.
Proof.
  intros H. unfold on_finish.
  replace (Nat.ltb 2 (length (current_poly s))) with false
    by (symmetry; apply Nat.ltb_ge; lia).
  reflexivity.
Qed.

Lemma finish_shape_short_noop_witness :
  length (current_poly ex_two) <= 2 /\ on_finish ex_two = ex_two.
Proof.
  assert (H : length (current_poly ex_two) <= 2) by (vm_compute; lia).
  split; [exact H|]. apply finish_shape_short_noop. exact H.
Defined.

(** C5: [on_click], [on_finish] with more than 2 pending points and
    [clearall] all leave [redo_stack] empty. *)
Theorem mutation_clears_redo (a : action) (s : DrawingApp) :
  mutates a s = true -> redo_stack (perform a s) = [].
Proof.
  intros Hm. destruct a as [p| |]; simpl in Hm; simpl; try reflexivity.
  unfold on_finish. rewrite Hm. reflexivity.
Qed.

Lemma mutation_clears_redo_witness :
  mutates FinishShape ex_after_undo = true /\
  redo_stack (perform FinishShape ex_after_undo) = [].
Proof.
  assert (H : mutates FinishShape ex_after_undo = true) by reflexivity.
  split; [exact H|]. apply mutation_clears_redo. exact H.
Defined.

(** C6: [undo] on an empty [undo_stack] and [redo] on an empty [redo_stack]
    leave the whole state unchanged. *)
Theorem undo_redo_empty_noop (s : DrawingApp) :
  (undo_stack s = [] -> undo s = s) /\ (redo_stack s = [] -> redo s = s).
Proof. split; [apply undo_empty | apply redo_empty]. Qed.

Lemma undo_redo_empty_noop_witness :
  undo_stack init = [] /\ undo init = init /\ redo_stack init = [] /\ redo init = init.
Proof.
  split; [reflexivity|]. split; [apply (proj1 (undo_redo_empty_noop init)); reflexivity|].
  split; [reflexivity|]. apply (proj2 (undo_redo_empty_noop init)). reflexivity.
Defined.

(** C7: [on_click] is total; it pushes the snapshot of the prior
    [(polygons, current_poly)], empties [redo_stack], appends the point at the
    end of [current_poly] and keeps [polygons]. *)
Theorem add_point_spec (s : DrawingApp) (p : point) :
  on_click s p = mkApp (polygons s) (current_poly s ++ [p]) (mouse_pos s)
                       (undo_stack s ++ [mkSnapshot (polygons s) (current_poly s)]) [].
Proof.
  unfold on_click, save_state, snapshot_of, append; simpl. rewrite map_clone. reflexivity.
Qed.

(** C8: from the initial state, after any sequence of events, every shape
    in [polygons] and in every snapshot on either stack has at least 3
    points. *)
Theorem shapes_at_least_three (es : list event) :
  app_ok (run init es) = true.
Proof. apply run_ok. reflexivity. Qed.

(** C9: the cursor [mouse_pos] is outside the history: a snapshot does not
    depend on it, [undo] and [redo] keep it, and [on_move] changes only it. *)
Theorem cursor_outside_history (s : DrawingApp) (c : point) :
  snapshot_of (on_move s c) = snapshot_of s /\
  mouse_pos (undo s) = mouse_pos s /\
  mouse_pos (redo s) = mouse_pos s /\
  on_move s c = mkApp (polygons s) (current_poly s) c (undo_stack s) (redo_stack s).
Proof.
  split; [reflexivity|]. split; [|split; [|reflexivity]].
  - unfold undo. destruct (pop (undo_stack s)) as [[? ?]|]; reflexivity.
  - unfold redo. destruct (pop (redo_stack s)) as [[? ?]|]; reflexivity.
Qed.

(** C10: [undo] and [redo] keep the total number of stored snapshots; when
    they act, each moves one snapshot between the stacks, and [undo] only
    adds to [redo_stack] (never clears it). *)
Theorem undo_redo_conserve_snapshots (s : DrawingApp) :
  stack_total (undo s) = stack_total s /\
  stack_total (redo s) = stack_total s /\
  (undo s = s \/ exists prev,
     undo_stack s = undo_stack (undo s) ++ [prev] /\
     redo_stack (undo s) = redo_stack s ++ [snapshot_of s]) /\
  (redo s = s \/ exists next,
     redo_stack s = redo_stack (redo s) ++ [next] /\
     undo_stack (redo s) = undo_stack s ++ [snapshot_of s]).
Proof.
  assert (HU : undo s = s \/ exists prev,
     undo_stack s = undo_stack (undo s) ++ [prev] /\
     redo_stack (undo s) = redo_stack s ++ [snapshot_of s]).
  { destruct (undo_stack s) eqn:E.
    - left. apply undo_empty. exact E.
    - right. assert (Hne : undo_stack s <> []) by (rewrite E; discriminate).
      destruct (undo_nonempty s Hne) as (rest & prev & Hs & ->). simpl.
      exists prev. rewrite <- E. split; assumption || reflexivity. }
  assert (HR : redo s = s \/ exists next,
     redo_stack s = redo_stack (redo s) ++ [next] /\
     undo_stack (redo s) = undo_stack s ++ [snapshot_of s]).
  { destruct (redo_stack s) eqn:E.
    - left. apply redo_empty. exact E.
    - right. assert (Hne : redo_stack s <> []) by (rewrite E; discriminate).
      destruct (redo_nonempty s Hne) as (rest & next & Hs & ->). simpl.
      exists next. rewrite <- E. split; assumption || reflexivity. }
  unfold stack_total. split; [|split; [|split; assumption]].
  - destruct HU as [-> | (prev & H1 & H2)]; [reflexivity|].
    rewrite H1, H2, !length_app. simpl. lia.
  - destruct HR as [-> | (next & H1 & H2)]; [reflexivity|].
    rewrite H1, H2, !length_app. simpl. lia.
Qed.

(** ** Further properties of the code *)

Lemma undo_pop_none (s : DrawingApp) : pop (undo_stack s) = None -> undo s = s.
Proof. intros E. unfold undo. rewrite E. reflexivity. Qed.

Lemma redo_pop_none (s : DrawingApp) : pop (redo_stack s) = None -> redo s = s.
Proof. intros E. unfold redo. rewrite E. reflexivity. Qed.

Lemma step_screen_sync (sc : Screen) (e : event) :
  canvas sc = redraw (app sc) ->
  app (step_screen sc e) = step (app sc) e /\
  canvas (step_screen sc e) = redraw (app (step_screen sc e)).
Proof.
  intros Hc. destruct sc as [s c]; simpl in *.
  destruct e as [p|p| | | | ]; simpl; try (split; reflexivity).
  - unfold on_finish. destruct (Nat.ltb 2 (length (current_poly s))); simpl;
      split; try reflexivity. exact Hc.
  - destruct (pop (undo_stack s)) as [[? ?]|] eqn:E; simpl; [split; reflexivity|].
    rewrite undo_pop_none by exact E. split; [reflexivity|exact Hc].
  - destruct (pop (redo_stack s)) as [[? ?]|] eqn:E; simpl; [split; reflexivity|].
    rewrite redo_pop_none by exact E. split; [reflexivity|exact Hc].
Qed.

Lemma run_screen_sync (es : list event) (sc : Screen) :
  canvas sc = redraw (app sc) ->
  app (run_screen sc es) = run (app sc) es /\
  canvas (run_screen sc es) = redraw (app (run_screen sc es)).
Proof.
  unfold run_screen, run. revert sc. induction es as [|e es IH]; intros sc Hc; simpl.
  - split; [reflexivity|exact Hc].
  - destruct (step_screen_sync sc e Hc) as [Ha Hc'].
    destruct (IH _ Hc') as [Ha2 Hc2]. split; [rewrite Ha2, Ha; reflexivity|exact Hc2].
Qed.

Lemma lines_of_black_shapes (c : color) (l : list poly) :
  c <> Black ->
  lines_of c (map (fun poly => mkLine poly Black (Some 2%Z) None) l) = [].
Proof.
  intros Hc. induction l as [|x l IH]; simpl; [reflexivity|].
  destruct c; [contradiction| |]; exact IH.
Qed.

Lemma lines_of_app (c : color) (l1 l2 : list line) :
  lines_of c (l1 ++ l2) = lines_of c l1 ++ lines_of c l2.
Proof. apply filter_app. Qed.

Lemma filter_forallb {A : Type} (f : A -> bool) (l : list A) :
  forallb f l = true -> filter f l = l.
Proof.
  induction l as [|x l IH]; simpl; [reflexivity|].
  intros H. apply andb_true_iff in H as [Hx Hl]. rewrite Hx, IH by exact Hl. reflexivity.
Qed.

Lemma shapes_ok_longer (ps : list poly) :
  shapes_ok ps = true -> forallb (fun poly => Nat.ltb 1 (length poly)) ps = true.
Proof.
  unfold shapes_ok. induction ps as [|x ps IH]; cbn [forallb]; [reflexivity|].
  intros H. apply andb_true_iff in H as [Hx Hl].
  apply Nat.leb_le in Hx. rewrite IH by exact Hl.
  replace (Nat.ltb 1 (length x)) with true by (symmetry; apply Nat.ltb_lt; lia).
  reflexivity.
Qed.

Lemma perform_redo_nil (a : action) (s : DrawingApp) :
  mutates a s = true -> redo_stack (perform a s) = [].
Proof.
  intros Hm. destruct a as [p| |]; simpl in Hm; simpl; try reflexivity.
  unfold on_finish. rewrite Hm. reflexivity.
Qed.

Lemma undo_stack_undo_length (s : DrawingApp) :
  length (undo_stack (undo s)) = pred (length (undo_stack s)).
Proof.
  destruct (undo_stack s) as [|u us] eqn:E0.
  - rewrite undo_empty by exact E0. rewrite E0. reflexivity.
  - rewrite <- E0.
    assert (Hne : undo_stack s <> []) by (rewrite E0; discriminate).
    destruct (undo_nonempty s Hne) as (rest & prev & Hs & ->). simpl.
    rewrite Hs. unfold append. rewrite length_app. simpl. lia.
Qed.

(** X1: the canvas always shows the current state: after any sequence of
    events from start-up, the canvas items are exactly [redraw] of the
    state, and the state is the one of the logic alone. *)
Theorem canvas_matches_state (es : list event) :
  app (run_screen screen_init es) = run init es /\
  canvas (run_screen screen_init es) = redraw (app (run_screen screen_init es)).
Proof. apply run_screen_sync. reflexivity. Qed.

(** X2: in every reachable state, the black lines on the canvas are the
    finished shapes, all of them, in order, each an open polyline through
    exactly its own points. *)
Theorem finished_shapes_drawn (es : list event) :
  lines_of Black (redraw (run init es)) =
  map (fun poly => mkLine poly Black (Some 2%Z) None) (polygons (run init es)).
Proof.
  pose proof (run_ok es init eq_refl) as H.
  set (s := run init es) in *. clearbody s.
  unfold app_ok in H. apply andb_true_iff in H as [H _]. apply andb_true_iff in H as [H _].
  unfold redraw, lines_of. rewrite filter_app.
  rewrite (filter_forallb _ (polygons s)) by (apply shapes_ok_longer; exact H).
  rewrite (filter_forallb (fun l => color_eqb (fill l) Black)
             (map _ (polygons s))) by (clear; induction (polygons s); simpl; auto).
  destruct (Nat.ltb 0 (length (current_poly s))); simpl; [|apply app_nil_r].
  destruct (Nat.ltb 1 (length (current_poly s))); simpl; apply app_nil_r.
Qed.

(** X3: the in-progress shape: a red line through all pending points when
    there are at least two, and a gray dashed rubber band from the last
    pending point to the cursor whenever there is a pending point. *)
Theorem in_progress_drawn (s : DrawingApp) :
  lines_of Red (redraw s) =
    (if Nat.ltb 1 (length (current_poly s))
     then [mkLine (current_poly s) Red (Some 2%Z) None] else []) /\
  lines_of Gray (redraw s) =
    match current_poly s with
    | [] => []
    | _ => [mkLine [last_point (current_poly s); mouse_pos s] Gray None (Some (4%Z, 2%Z))]
    end.
Proof.
  unfold redraw. rewrite !lines_of_app, !lines_of_black_shapes by discriminate.
  simpl.
  destruct (current_poly s) as [|p0 ps]; simpl; [split; reflexivity|].
  destruct ps as [|p1 ps]; simpl; split; reflexivity.
Qed.

(** X4: after a click, the rubber band starts at the point just added and
    ends at the cursor position of the last pointer move (a click does not
    update [mouse_pos]). *)
Theorem rubber_band_after_click (s : DrawingApp) (p : point) :
  lines_of Gray (redraw (on_click s p)) =
    [mkLine [p; mouse_pos s] Gray None (Some (4%Z, 2%Z))].
Proof.
  destruct (in_progress_drawn (on_click s p)) as [_ ->].
  unfold on_click, save_state, append, last_point; simpl.
  rewrite last_last. destruct (current_poly s); reflexivity.
Qed.

(** X5: when [redo_stack] is non-empty, [redo] followed by [undo] gives
    back the whole state. *)
Theorem undo_after_redo (s : DrawingApp) :
  redo_stack s <> [] -> undo (redo s) = s.
Proof.
  intros Hne. destruct (redo_nonempty s Hne) as (rest & next & Hr & ->).
  unfold undo; simpl. rewrite pop_append.
  unfold restore_state, snapshot_of; simpl. rewrite !map_clone.
  destruct s as [ps cp m us rs]; simpl in *. rewrite Hr.
  destruct next as [nps ncp]. reflexivity.
Qed.

Lemma undo_after_redo_witness :
  redo_stack ex_after_undo <> [] /\ undo (redo ex_after_undo) = ex_after_undo.
Proof.
  assert (H : redo_stack ex_after_undo <> []) by (vm_compute; discriminate).
  split; [exact H|]. apply undo_after_redo. exact H.
Defined.

(** X6: undoing an action that changed the sketch gives back the whole
    prior state, undo history included, except that [redo_stack] now holds
    exactly the snapshot of the state the action produced. *)
Theorem undo_after_action_exact (a : action) (s : DrawingApp) :
  mutates a s = true ->
  undo (perform a s) =
    mkApp (polygons s) (current_poly s) (mouse_pos s) (undo_stack s)
          [snapshot_of (perform a s)].
Proof.
  intros Hm. destruct a as [p| |]; simpl in Hm; simpl.
  - unfold on_click, save_state; simpl. undo_of_saved. reflexivity.
  - unfold on_finish, save_state. rewrite Hm. simpl. undo_of_saved. reflexivity.
  - unfold clearall, save_state; simpl. undo_of_saved. reflexivity.
Qed.

Lemma undo_after_action_exact_witness :
  mutates ClearAll ex_drawn = true /\
  undo (perform ClearAll ex_drawn) =
    mkApp (polygons ex_drawn) (current_poly ex_drawn) (mouse_pos ex_drawn)
          (undo_stack ex_drawn) [snapshot_of (perform ClearAll ex_drawn)].
Proof.
  assert (H : mutates ClearAll ex_drawn = true) by reflexivity.
  split; [exact H|]. apply undo_after_action_exact. exact H.
Defined.

(** X7: right after an action that changed the sketch, [redo] does
    nothing: the action discarded the redo history. *)
Theorem redo_after_action_noop (a : action) (s : DrawingApp) :
  mutates a s = true -> redo (perform a s) = perform a s.
Proof. intros Hm. apply redo_empty, perform_redo_nil, Hm. Qed.

Lemma redo_after_action_noop_witness :
  mutates (AddPoint (5, 5)%Z) ex_after_undo = true /\
  redo (perform (AddPoint (5, 5)%Z) ex_after_undo) = perform (AddPoint (5, 5)%Z) ex_after_undo.
Proof.
  assert (H : mutates (AddPoint (5, 5)%Z) ex_after_undo = true) by reflexivity.
  split; [exact H|]. apply redo_after_action_noop. exact H.
Defined.

(** X8: [k] undos followed by [k] redos give back the whole state, as long
    as [undo_stack] holds at least [k] snapshots. *)
Theorem redo_k_after_undo_k (k : nat) (s : DrawingApp) :
  k <= length (undo_stack s) -> Nat.iter k redo (Nat.iter k undo s) = s.
Proof.
  revert s. induction k as [|k IH]; intros s Hk; [reflexivity|].
  rewrite Nat.iter_succ_r. rewrite Nat.iter_succ.
  assert (Hlen : forall j t, length (undo_stack (Nat.iter j undo t))
                             = length (undo_stack t) - j).
  { clear. induction j as [|j IHj]; intros t; simpl; [lia|].
    rewrite undo_stack_undo_length, IHj. lia. }
  assert (Hne : undo_stack (Nat.iter k undo s) <> []).
  { intros E. specialize (Hlen k s). rewrite E in Hlen. simpl in Hlen. lia. }
  rewrite redo_undo_id by exact Hne. apply IH. lia.
Qed.

Lemma redo_k_after_undo_k_witness :
  3 <= length (undo_stack ex_drawn) /\
  Nat.iter 3 redo (Nat.iter 3 undo ex_drawn) = ex_drawn.
Proof.
  assert (H : 3 <= length (undo_stack ex_drawn)) by (vm_compute; lia).
  split; [exact H|]. apply redo_k_after_undo_k. exact H.
Defined.

(** X9: a run of clicks appends the clicked points, in click order, to the
    pending points, keeps the finished shapes, and adds one undo snapshot
    per click. *)
Theorem clicks_append_points (ps : list point) (s : DrawingApp) :
  current_poly (run s (map Click ps)) = current_poly s ++ ps /\
  polygons (run s (map Click ps)) = polygons s /\
  length (undo_stack (run s (map Click ps))) = length (undo_stack s) + length ps.
Proof.
  unfold run. revert s. induction ps as [|p ps IH]; intros s; simpl.
  - rewrite app_nil_r, Nat.add_0_r. repeat split; reflexivity.
  - destruct (IH (on_click s p)) as (H1 & H2 & H3).
    rewrite H1, H2, H3. unfold on_click, save_state, append; simpl.
    rewrite <- app_assoc, length_app. simpl. split; [reflexivity|split; [reflexivity|lia]].
Qed.

(** X10: pointer moves commute with [undo] and [redo]: the cursor is kept
    across history navigation and the history ignores it. *)
Theorem move_commutes_history (s : DrawingApp) (c : point) :
  undo (on_move s c) = on_move (undo s) c /\
  redo (on_move s c) = on_move (redo s) c.
Proof.
  split.
  - unfold undo; simpl. destruct (pop (undo_stack s)) as [[? ?]|]; reflexivity.
  - unfold redo; simpl. destruct (pop (redo_stack s)) as [[? ?]|]; reflexivity.
Qed.

End Sketch.
